(** * pcr/utils.py: the request decorators of the guild back end

    A shallow embedding of the four decorators of [pcr/utils.py]
    ([authenticate], [allow], [parameter], [pagination]) and the properties
    of their behaviour.

    Python objects are modelled by an inductive type of values, exceptions
    by an error result, and a decorated view by what its wrapper does with
    the request before the view is reached: answer by itself, hand the
    request over to the view, or let an exception out. *)

From Stdlib Require Import ZArith Ascii String List DecimalString DecimalPos.
From stdpp Require Import base option list gmap strings.

Local Open Scope Z_scope.
Local Open Scope string_scope.

(** ** Python values *)

(** The objects that reach the wrappers: what [json.loads] can return
    ([None], [bool], [int], [float], [str], [list], [dict] with string keys,
    in insertion order), and Django's [QueryDict] (the type of [request.GET]
    and [request.POST]): a dictionary from a key to the list of the values
    given for it.  The wrappers never compute with a [float]; the model
    keeps its literal. *)
#[local] Unset Elimination Schemes.
Inductive value : Type :=
| VNone
| VBool (b : bool)
| VInt (z : Z)
| VFloat (literal : string)
| VStr (s : string)
| VList (items : list value)
| VDict (entries : list (string * value))
| VQueryDict (lists : gmap string (list string)).
#[local] Set Elimination Schemes.

(** A [dict] with string keys, in insertion order. *)
Abbreviation dict := (list (string * value)).

(** ** Exceptions *)

Inductive ExcClass : Type :=
| JSONDecodeError      (* json.decoder.JSONDecodeError, a ValueError *)
| UnicodeDecodeError   (* a ValueError *)
| ValidationError      (* jsonschema.ValidationError *)
| SchemaError          (* jsonschema.SchemaError *)
| ValueError
| TypeError
| AttributeError
| KeyError
| RecursionError
| DoesNotExist.        (* User.DoesNotExist *)

#[global] Instance ExcClass_eq_dec : EqDecision ExcClass.
Proof. solve_decision. Defined.

(** An exception object: its class, and a text that stands for its
    message. *)
Record Exception : Type := mkExc { exc_class : ExcClass; exc_text : string }.

#[global] Instance Exception_eq_dec : EqDecision Exception.
Proof. solve_decision. Defined.

(** [issubclass sub cls], for the classes above. *)
Definition issubclass (sub cls : ExcClass) : bool :=
  match sub, cls with
  | JSONDecodeError, ValueError => true
  | UnicodeDecodeError, ValueError => true
  | _, _ => bool_decide (sub = cls)
  end.

(** [except cls as err] catches [err] when [isinstance err cls]. *)
Definition isinstance (err : Exception) (cls : ExcClass) : bool :=
  issubclass (exc_class err) cls.

(** The result of evaluating an expression: a value or a raised exception. *)
Inductive PyResult (A : Type) : Type :=
| Ok (a : A)
| Raise (err : Exception).
Arguments Ok {A} a.
Arguments Raise {A} err.

Definition py_bind {A B} (r : PyResult A) (k : A → PyResult B) : PyResult B :=
  match r with
  | Ok a => k a
  | Raise err => Raise err
  end.

Notation "x ←ᵖ r ; k" := (py_bind r (fun x => k))
  (at level 100, r at next level, k at level 200, right associativity,
   format "x  ←ᵖ  r ;  '/' k").

(** ** Built-in operations on values *)

Module Py.

(** [d.get(key)] as an option, for a [dict]: the first entry of the
    association list with that key. *)
Fixpoint lookup (key : string) (d : dict) : option value :=
  match d with
  | [] => None
  | (k, v) :: d' => if decide (k = key) then Some v else lookup key d'
  end.

(** [d[key] = v] for a [dict]: an existing key keeps its place. *)
Fixpoint set (key : string) (v : value) (d : dict) : dict :=
  match d with
  | [] => [(key, v)]
  | (k, w) :: d' =>
      if decide (k = key) then (k, v) :: d' else (k, w) :: set key v d'
  end.

(** [needle in hay] for two [str]: substring test. *)
Fixpoint starts_with (needle hay : string) : bool :=
  match needle, hay with
  | EmptyString, _ => true
  | String _ _, EmptyString => false
  | String a n', String b h' => bool_decide (a = b) && starts_with n' h'
  end.

Fixpoint str_contains (needle hay : string) : bool :=
  starts_with needle hay ||
  match hay with
  | EmptyString => false
  | String _ h' => str_contains needle h'
  end.

(** [elem == key] for a [str] [key]: only an equal [str] is equal. *)
Definition eq_str (elem : value) (key : string) : bool :=
  match elem with
  | VStr s => bool_decide (s = key)
  | _ => false
  end.

(** [QueryDict.__getitem__] on the list found for a key: its last value,
    and [[]] for an empty list. *)
Definition last_value (l : list string) : value :=
  match last l with
  | Some s => VStr s
  | None => VList []
  end.

(** [key in obj], [key] a [str]. *)
Definition contains (obj : value) (key : string) : PyResult bool :=
  match obj with
  | VStr s => Ok (str_contains key s)
  | VList items => Ok (existsb (fun elem => eq_str elem key) items)
  | VDict d => Ok (bool_decide (is_Some (lookup key d)))
  | VQueryDict q => Ok (bool_decide (is_Some (q !! key)))
  | VNone | VBool _ | VInt _ | VFloat _ =>
      Raise (mkExc TypeError "argument is not iterable")
  end.

(** [obj.get(key)]: [dict.get], and [QueryDict.get], which returns the
    last value given for the key and [None] when the key is absent or its
    list is empty; the other types have no [get]. *)
Definition get (obj : value) (key : string) : PyResult value :=
  match obj with
  | VDict d => Ok (default VNone (lookup key d))
  | VQueryDict q =>
      Ok (match q !! key with
          | Some l => match last l with Some s => VStr s | None => VNone end
          | None => VNone
          end)
  | _ => Raise (mkExc AttributeError "object has no attribute 'get'")
  end.

(** [obj[key]], [key] a [str]. *)
Definition getitem (obj : value) (key : string) : PyResult value :=
  match obj with
  | VDict d =>
      match lookup key d with
      | Some v => Ok v
      | None => Raise (mkExc KeyError key)
      end
  | VQueryDict q =>
      match q !! key with
      | Some l => Ok (last_value l)
      | None => Raise (mkExc KeyError key)
      end
  | VStr _ | VList _ =>
      Raise (mkExc TypeError "indices must be integers")
  | VNone | VBool _ | VInt _ | VFloat _ =>
      Raise (mkExc TypeError "object is not subscriptable")
  end.

(** [q.get(key, dflt)] for a [QueryDict] and a [str] default. *)
Definition query_get (q : gmap string (list string)) (key dflt : string)
  : string :=
  match q !! key with
  | Some l => default dflt (last l)
  | None => dflt
  end.

End Py.

(** The inputs that are mappings: a [dict], or a [QueryDict] as Django
    builds it from a query string or a form, where every key has at least
    one value. *)
Definition is_mapping (data : value) : Prop :=
  match data with
  | VDict _ => True
  | VQueryDict q => map_Forall (fun _ l => l ≠ []) q
  | _ => False
  end.

(** The JSON documents that are no container: [null], a boolean, a
    number. *)
Definition is_scalar (data : value) : Prop :=
  match data with
  | VNone | VBool _ | VInt _ | VFloat _ => True
  | _ => False
  end.

(** ** [int(str)] and [str(int)] *)

Module PyInt.

(** The characters [int] skips around a literal. *)
Definition is_space (c : ascii) : bool :=
  bool_decide (c ∈ [" "; "009"; "010"; "011"; "012"; "013"]%char).

Definition digit (c : ascii) : option Z :=
  let n := Z.of_N (N_of_ascii c) in
  if bool_decide (48 ≤ n ≤ 57)%Z then Some (n - 48) else None.

Fixpoint lstrip (s : string) : string :=
  match s with
  | String c s' => if is_space c then lstrip s' else s
  | EmptyString => s
  end.

Definition strip (s : string) : string :=
  String.rev (lstrip (String.rev (lstrip s))).

(** Decimal digits, with single underscores allowed between two digits;
    [after_digit] tells whether the previous character was a digit. *)
Fixpoint digits (acc : Z) (after_digit : bool) (s : string) : option Z :=
  match s with
  | EmptyString => if after_digit then Some acc else None
  | String c s' =>
      match digit c with
      | Some d => digits (10 * acc + d) true s'
      | None =>
          if bool_decide (c = "_"%char) && after_digit
          then digits acc false s'
          else None
      end
  end.

Definition literal (s : string) : option Z :=
  match s with
  | String "+" s' => digits 0 false s'
  | String "-" s' => Z.opp <$> digits 0 false s'
  | _ => digits 0 false s
  end.

(** [int(s)] for a [str] of ASCII characters: a decimal literal with an
    optional sign, surrounded by optional white space; anything else raises
    [ValueError], here carrying the text that was refused.  (The limit that
    recent interpreters put on the number of digits, which also raises
    [ValueError], is outside the model.) *)
Definition of_str (s : string) : PyResult Z :=
  match literal (strip s) with
  | Some z => Ok z
  | None => Raise (mkExc ValueError s)
  end.

(** [str(z)]: the decimal digits of [z], after [-] when it is negative. *)
Definition to_str (z : Z) : string := NilZero.string_of_int (Z.to_int z).

End PyInt.

(** ** Responses and schemas *)

(** Modelled from the spec: [pcr/response.py], which declares
    [HttpResponseIncorrectParameter], is not among the sources; it is the
    response type of fixed status used for an incorrect parameter, and its
    content payload carries the error it is built from.  The other
    constructor is [HttpResponse(status=..)] of Django, with its content
    (empty unless given). *)
Inductive Response : Type :=
| HttpResponse (status : Z) (content : string)
| HttpResponseIncorrectParameter (content : Exception).

(** The JSON Schema given to [parameter]: a [dict] whose [properties]
    keyword, when it is there, maps each property name to its subschema
    (JSON Schema wants an object there); the other keywords are read by the
    validator only. *)
Record Schema : Type := mkSchema {
  schema_properties : option dict;
  schema_keywords : dict
}.

(** What a wrapper does once it has looked at the request. *)
Inductive Outcome : Type :=
| Respond (response : Response)  (* [return response]: [func] is not called *)
| Delegate                       (* [return func(request, *args, **kwargs)] *)
| Throw (err : Exception).       (* an exception leaves the wrapper *)

Section Decorators.

(** The identity records and their identifiers are opaque. *)
Variables (UserId User : Type).

(** The request object: the fields the wrappers read, and the attributes
    they attach ([None] while an attribute is not set). *)
Record Request : Type := mkRequest {
  req_method : string;
  req_META : gmap string string;
  req_body : string;
  req_GET : gmap string (list string);
  req_POST : gmap string (list string);
  req_session : gmap string UserId;
  req_user : option User;
  req_data : option dict;
  req_page : option Z;
  req_size : option Z
}.

(** [request.user = u], [request.data = d], [request.page = p],
    [request.size = s]. *)
Definition set_user (u : User) (r : Request) : Request :=
  mkRequest (req_method r) (req_META r) (req_body r) (req_GET r) (req_POST r)
    (req_session r) (Some u) (req_data r) (req_page r) (req_size r).

Definition set_data (d : dict) (r : Request) : Request :=
  mkRequest (req_method r) (req_META r) (req_body r) (req_GET r) (req_POST r)
    (req_session r) (req_user r) (Some d) (req_page r) (req_size r).

Definition set_page (p : Z) (r : Request) : Request :=
  mkRequest (req_method r) (req_META r) (req_body r) (req_GET r) (req_POST r)
    (req_session r) (req_user r) (req_data r) (Some p) (req_size r).

Definition set_size (s : Z) (r : Request) : Request :=
  mkRequest (req_method r) (req_META r) (req_body r) (req_GET r) (req_POST r)
    (req_session r) (req_user r) (req_data r) (req_page r) (Some s).

(** A view, or a decorated view: it answers or raises, and leaves the
    request object in some state. *)
Definition View : Type := Request → PyResult Response * Request.

(** The body of a [wrapper(request, *args, **kwargs)]: its outcome and the
    state of the request object at that point. *)
Definition Wrapper : Type := Request → Outcome * Request.

(** The decorated view: [Delegate] is the call of [func] on the request as
    the wrapper left it. *)
Definition decorate (wrapper : Wrapper) (func : View) : View :=
  fun request =>
    match wrapper request with
    | (Respond response, request') => (Ok response, request')
    | (Delegate, request') => func request'
    | (Throw err, request') => (Raise err, request')
    end.

(** The collaborators: the identity store, [json.loads] and
    [jsonschema.validate]. *)
Variable find_by_id : UserId → option User.
Variable json_loads : string → PyResult value.
Variable validate : value → Schema → PyResult unit.

(** Modelled from the spec: [user/models.py] is not among the sources.
    [User.objects.get(id=user_id)] looks the identifier up in the identity
    store and raises [User.DoesNotExist] when there is no identifier
    ([None]) or no record for it. *)
Definition User_objects_get (user_id : option UserId) : PyResult User :=
  match user_id ≫= find_by_id with
  | Some u => Ok u
  | None => Raise (mkExc DoesNotExist "User matching query does not exist.")
  end.

(** *** [authenticate] (lines 20-27) *)
Definition authenticate : Wrapper := fun request =>
  let user_id := req_session request !! "user_id" in
  match User_objects_get user_id with
  | Raise err =>
      if isinstance err DoesNotExist
      then (Respond (HttpResponse 401 ""), request)
      else (Throw err, request)
  | Ok u => (Delegate, set_user u request)
  end.

(** *** [allow] (lines 40-43) *)
Definition allow (methods : list string) : Wrapper := fun request =>
  if bool_decide (req_method request ∉ methods)
  then (Respond (HttpResponse 404 ""), request)
  else (Delegate, request).

(** *** [parameter] (lines 60-82) *)

(** Lines 61-71: the object bound to [data]; an exception can only come
    from [json.loads]. *)
Definition input_data (request : Request) : PyResult value :=
  if bool_decide (req_META request !! "CONTENT_TYPE" = Some "application/json")
  then json_loads (req_body request)
  else if bool_decide (req_method request = "POST")
  then Ok (VQueryDict (req_POST request))
  else if bool_decide (req_method request = "GET")
  then Ok (VQueryDict (req_GET request))
  else Ok (VDict []).

(** Lines 78 and 80, for one [key] of [properties]: [None] when the
    condition of the comprehension drops the key, the value to store
    otherwise. *)
Definition data_item (data : value) (properties : dict) (key : string)
  : PyResult (option value) :=
  present ←ᵖ Py.contains data key;
  keep ←ᵖ (if present : bool then Ok true
           else prop ←ᵖ Py.getitem (VDict properties) key;
                Py.contains prop "default");
  if keep : bool then
    present ←ᵖ Py.contains data key;
    v ←ᵖ (if present : bool then Py.get data key
          else prop ←ᵖ Py.getitem (VDict properties) key;
               Py.getitem prop "default");
    Ok (Some v)
  else Ok None.

(** Lines 77-81: the comprehension over the keys of [properties], in
    their order, filling the new [dict]. *)
Fixpoint data_items (data : value) (properties : dict) (keys : list string)
  (acc : dict) : PyResult dict :=
  match keys with
  | [] => Ok acc
  | key :: keys' =>
      item ←ᵖ data_item data properties key;
      data_items data properties keys'
        (match item with Some v => Py.set key v acc | None => acc end)
  end.

Definition normalize (data : value) (properties : dict) : PyResult dict :=
  data_items data properties properties.*1 [].

Definition parameter (schema : Schema) : Wrapper := fun request =>
  match input_data request with
  | Raise err =>
      if isinstance err JSONDecodeError
      then (Respond (HttpResponseIncorrectParameter err), request)
      else (Throw err, request)
  | Ok data =>
      match validate data schema with
      | Raise err =>
          if isinstance err ValidationError
          then (Respond (HttpResponseIncorrectParameter err), request)
          else (Throw err, request)
      | Ok _ =>
          let properties := default [] (schema_properties schema) in
          match normalize data properties with
          | Raise err => (Throw err, request)
          | Ok d => (Delegate, set_data d request)
          end
      end
  end.

(** *** [pagination] (lines 103-113) *)
Definition pagination (default min_size max_size : Z) : Wrapper :=
  fun request =>
    if bool_decide (req_method request ≠ "GET") then (Delegate, request)
    else
      let page := Py.query_get (req_GET request) "page" "1" in
      let size :=
        Py.query_get (req_GET request) "size" (PyInt.to_str default) in
      match PyInt.of_str page with
      | Raise err =>
          if isinstance err ValueError
          then (Respond (HttpResponseIncorrectParameter err), request)
          else (Throw err, request)
      | Ok p =>
          let request := set_page p request in
          match PyInt.of_str size with
          | Raise err =>
              if isinstance err ValueError
              then (Respond (HttpResponseIncorrectParameter err), request)
              else (Throw err, request)
          | Ok s =>
              (Delegate, set_size (Z.min (Z.max s min_size) max_size) request)
          end
      end.

(** The strings that [pagination] gives to [int] (lines 106-107). *)
Definition page_text (request : Request) : string :=
  Py.query_get (req_GET request) "page" "1".

Definition size_text (default : Z) (request : Request) : string :=
  Py.query_get (req_GET request) "size" (PyInt.to_str default).

(** The request declares the content type [application/json]. *)
Definition is_json (request : Request) : Prop :=
  req_META request !! "CONTENT_TYPE" = Some "application/json".

(** The two failures that [parameter] catches: [json.loads] raises
    [JSONDecodeError] on the body of a JSON request; [validate] raises
    [ValidationError] on the chosen input. *)
Definition parse_failure (request : Request) (err : Exception) : Prop :=
  is_json request ∧ json_loads (req_body request) = Raise err ∧
  isinstance err JSONDecodeError = true.

Definition validation_failure (schema : Schema) (request : Request)
    (err : Exception) : Prop :=
  ∃ data, input_data request = Ok data ∧
          validate data schema = Raise err ∧
          isinstance err ValidationError = true.

(** [parameter] goes on with [data] as lines 72-82 do: a refusal of [data]
    by the validator is answered with the error response; when the
    validator accepts [data], the comprehension over [data] fills
    [request.data] for the view, or its exception leaves the wrapper. *)
Definition continues_with (schema : Schema) (request : Request)
    (data : value) : Prop :=
  (∀ err, validate data schema = Raise err →
          isinstance err ValidationError = true →
          parameter schema request
          = (Respond (HttpResponseIncorrectParameter err), request)) ∧
  (∀ d, validate data schema = Ok () →
        normalize data (default [] (schema_properties schema)) = Ok d →
        parameter schema request = (Delegate, set_data d request)) ∧
  (∀ err, validate data schema = Ok () →
          normalize data (default [] (schema_properties schema)) = Raise err →
          parameter schema request = (Throw err, request)).

End Decorators.

Arguments mkRequest {UserId User}.
Arguments req_method {UserId User} _.
Arguments req_META {UserId User} _.
Arguments req_body {UserId User} _.
Arguments req_GET {UserId User} _.
Arguments req_POST {UserId User} _.
Arguments req_session {UserId User} _.
Arguments req_user {UserId User} _.
Arguments req_data {UserId User} _.
Arguments req_page {UserId User} _.
Arguments req_size {UserId User} _.
Arguments set_user {UserId User} u r.
Arguments set_data {UserId User} d r.
Arguments set_page {UserId User} p r.
Arguments set_size {UserId User} s r.
Arguments decorate {UserId User} wrapper func request.
Arguments User_objects_get {UserId User} find_by_id user_id.
Arguments authenticate {UserId User} find_by_id request.
Arguments allow {UserId User} methods request.
Arguments input_data {UserId User} json_loads request.
Arguments parameter {UserId User} json_loads validate schema request.
Arguments pagination {UserId User} default min_size max_size request.
Arguments page_text {UserId User} request.
Arguments is_json {UserId User} request.
Arguments parse_failure {UserId User} json_loads request err.
Arguments validation_failure {UserId User} json_loads validate schema request
  err.
Arguments continues_with {UserId User} json_loads validate schema request
  data.
Arguments size_text {UserId User} default request.

(** ** Concrete collaborators, to run the wrappers *)

Module Sample.

(** An identity store with one record. *)
Definition find_by_id (id : string) : option string :=
  if decide (id = "0123456789abcdef0123456789abcdef") then Some "alice"
  else None.

(** [json.loads] cut down to four documents; any other body is taken to
    be malformed. *)
Definition json_loads (body : string) : PyResult value :=
  if decide (body = "{}") then Ok (VDict [])
  else if decide (body = "[]") then Ok (VList [])
  else if decide (body = "null") then Ok VNone
  else if decide (body = "5") then Ok (VInt 5)
  else Raise (mkExc JSONDecodeError
                "Expecting value: line 1 column 1 (char 0)").

(** [validate] cut down to two keywords of JSON Schema: [type], for the
    value [object], and [required]; both apply as in JSON Schema
    ([required] constrains objects only). *)
Definition is_object (data : value) : bool :=
  match data with
  | VDict _ | VQueryDict _ => true
  | _ => false
  end.

Definition has_key (data : value) (name : value) : bool :=
  match name with
  | VStr s =>
      match Py.contains data s with
      | Ok b => b
      | Raise _ => false
      end
  | _ => false
  end.

Definition validate (data : value) (schema : Schema) : PyResult unit :=
  if match Py.lookup "type" (schema_keywords schema) with
     | Some (VStr t) => bool_decide (t = "object") && negb (is_object data)
     | _ => false
     end
  then Raise (mkExc ValidationError "is not of type 'object'")
  else if match Py.lookup "required" (schema_keywords schema) with
          | Some (VList names) =>
              is_object data && negb (forallb (has_key data) names)
          | _ => false
          end
  then Raise (mkExc ValidationError "is a required property")
  else Ok ().

Abbreviation Request := (Request string string).

(** A request with the given verb, content type, body and query string
    and nothing else. *)
Definition request (method : string) (content_type : option string)
    (body : string) (query : gmap string (list string)) : Request :=
  mkRequest method
    (match content_type with
     | Some ct => {["CONTENT_TYPE" := ct]}
     | None => ∅
     end)
    body query ∅ ∅ None None None None.

(** A POST request with form parameters and no JSON content type. *)
Definition form_request (form : gmap string (list string)) : Request :=
  mkRequest "POST"
    {["CONTENT_TYPE" := "application/x-www-form-urlencoded"]}
    "" ∅ form ∅ None None None None.

(** A request in a session that holds the given user identifier. *)
Definition session_request (user_id : string) : Request :=
  mkRequest "GET" ∅ "" ∅ ∅ {["user_id" := user_id]} None None None None.

(** [{"properties": {"name": {"default": "anon"}}}],
    [{"properties": {"name": {}}}] and
    [{"type": "object", "properties": {"name": {}}}]. *)
Definition schema_default : Schema :=
  mkSchema (Some [("name", VDict [("default", VStr "anon")])]) [].

Definition schema_plain : Schema :=
  mkSchema (Some [("name", VDict [])]) [].

Definition schema_object : Schema :=
  mkSchema (Some [("name", VDict [])]) [("type", VStr "object")].

End Sample.

(** More documents for the JSON reader, and a view. *)
Module MoreSamples.

(** The double quote character. *)
Definition quote : string := String (ascii_of_nat 34) EmptyString.

(** The documents [["name"]] and ["my name"]. *)
Definition names_document : string :=
  "[" +:+ quote +:+ "name" +:+ quote +:+ "]".
Definition text_document : string := quote +:+ "my name" +:+ quote.

(** [Sample.json_loads] with these two documents added. *)
Definition json_loads (body : string) : PyResult value :=
  if decide (body = names_document) then Ok (VList [VStr "name"])
  else if decide (body = text_document) then Ok (VStr "my name")
  else Sample.json_loads body.


(** [{"properties": {"name": {}, "age": {"default": 18}}}]. *)
Definition schema_two : Schema :=
  mkSchema (Some [("name", VDict []); ("age", VDict [("default", VInt 18)])])
    [].

(** [{}]: a schema without [properties]. *)
Definition schema_bare : Schema := mkSchema None [].

(** A body that is no UTF-8 text: the single byte 255. *)
Definition undecodable : string := String (ascii_of_nat 255) EmptyString.

(** [Sample.json_loads] on bytes: it decodes the body first, and raises
    [UnicodeDecodeError] on the body that is no UTF-8 text. *)
Definition bytes_loads (body : string) : PyResult value :=
  if decide (body = undecodable)
  then Raise (mkExc UnicodeDecodeError
                "'utf-8' codec can't decode byte 0xff in position 0")
  else Sample.json_loads body.

End MoreSamples.

(** The JSON documents that are sequences: a string, an array. *)
Definition is_sequence (data : value) : Prop :=
  match data with
  | VStr _ | VList _ => True
  | _ => False
  end.

(** The default that the schema declares for a property, if any:
    [properties[key]['default']] for a subschema that is a [dict]. *)
Definition declared_default (properties : dict) (key : string)
  : option value :=
  match Py.lookup key properties with
  | Some (VDict p) => Py.lookup "default" p
  | _ => None
  end.

(** ** Notions used to reason about [int] and [str] *)



(** ** Properties of the wrappers *)

Section Properties.

Context {UserId User : Type}.
Variable find_by_id : UserId → option User.
Variable json_loads : string → PyResult value.
Variable validate : value → Schema → PyResult unit.

Implicit Types (request : Request UserId User) (func : View UserId User).
Implicit Types (wrapper : Wrapper UserId User).

(** A wrapper that answers by itself gives its answer whatever the view
    is; one that delegates gives what the view gives on the request it
    passes; an exception of the wrapper is the exception of the decorated
    view. *)
Lemma decorate_respond wrapper request response request' :
  wrapper request = (Respond response, request') →
  ∀ func, decorate wrapper func request = (Ok response, request').
Proof. intros Hw func. unfold decorate. by rewrite Hw. Qed.

Lemma decorate_delegate wrapper request request' :
  wrapper request = (Delegate, request') →
  ∀ func, decorate wrapper func request = func request'.
Proof. intros Hw func. unfold decorate. by rewrite Hw. Qed.

Lemma decorate_throw wrapper request err request' :
  wrapper request = (Throw err, request') →
  ∀ func, decorate wrapper func request = (Raise err, request').
Proof. intros Hw func. unfold decorate. by rewrite Hw. Qed.

(** *** [authenticate] *)

(** C7. A request whose session holds no user identifier, or an
    identifier that no identity record has, is answered with status 401
    and an empty body, whatever the view is (it is not called); a request
    whose session identifier has a record gets that record as
    [request.user] and goes to the view. *)
Theorem authenticate_session request :
  ((req_session request !! "user_id" = None ∨
    ∃ id, req_session request !! "user_id" = Some id ∧ find_by_id id = None) →
   authenticate find_by_id request = (Respond (HttpResponse 401 ""), request) ∧
   ∀ func, decorate (authenticate find_by_id) func request
           = (Ok (HttpResponse 401 ""), request)) ∧
  (∀ id u,
     req_session request !! "user_id" = Some id → find_by_id id = Some u →
     authenticate find_by_id request = (Delegate, set_user u request) ∧
     req_user (set_user u request) = Some u ∧
     ∀ func, decorate (authenticate find_by_id) func request
             = func (set_user u request)).
Proof.
  split.
  - intros Hno.
    assert (authenticate find_by_id request
            = (Respond (HttpResponse 401 ""), request)) as Hw.
    { unfold authenticate, User_objects_get.
      destruct Hno as [-> | (id & -> & Hid)]; simpl; [done |].
      by rewrite Hid. }
    split; [done | by apply decorate_respond].
  - intros id u Hs Hid.
    assert (authenticate find_by_id request = (Delegate, set_user u request))
      as Hw.
    { unfold authenticate, User_objects_get. rewrite Hs. simpl.
      by rewrite Hid. }
    split; [done | split; [done | by apply decorate_delegate]].
Qed.

(** *** [allow] *)

(** C8. For the list of verbs given to [allow]: a request whose verb is
    not in it is answered with status 404, whatever the view is (it is not
    called), and no request is answered with status 405 by the wrapper;
    a request whose verb is in the list goes to the view as it came. *)
Theorem allow_methods (methods : list string) request :
  (req_method request ∉ methods →
   allow methods request = (Respond (HttpResponse 404 ""), request) ∧
   ∀ func, decorate (allow methods) func request
           = (Ok (HttpResponse 404 ""), request)) ∧
  (req_method request ∈ methods →
   allow methods request = (Delegate, request) ∧
   ∀ func, decorate (allow methods) func request = func request) ∧
  (∀ content, (allow methods request).1 ≠ Respond (HttpResponse 405 content)).
Proof.
  unfold allow. repeat split.
  - by rewrite bool_decide_eq_true_2.
  - apply decorate_respond. by rewrite bool_decide_eq_true_2.
  - rewrite bool_decide_eq_false_2; [done | by intros Hn].
  - apply decorate_delegate.
    rewrite bool_decide_eq_false_2; [done | by intros Hn].
  - intros content. by case_bool_decide.
Qed.

(** *** [pagination] *)

(** [int] on a [str] raises nothing but [ValueError]. *)
Lemma of_str_raises s err :
  PyInt.of_str s = Raise err → err = mkExc ValueError s.
Proof. unfold PyInt.of_str. destruct (PyInt.literal _); congruence. Qed.

(** C9. A request whose verb is not GET goes to the view with the request
    object as it came: [pagination] changes [request.page] or
    [request.size] for GET requests only. *)
Theorem pagination_not_get (default min_size max_size : Z) request :
  (req_method request ≠ "GET" →
   pagination default min_size max_size request = (Delegate, request) ∧
   ∀ func, decorate (pagination default min_size max_size) func request
           = func request) ∧
  (∀ outcome request',
     pagination default min_size max_size request = (outcome, request') →
     req_page request' ≠ req_page request ∨
     req_size request' ≠ req_size request →
     req_method request = "GET").
Proof.
  split.
  - intros Hm.
    assert (pagination default min_size max_size request = (Delegate, request))
      as Hw by (unfold pagination; by rewrite bool_decide_eq_true_2).
    split; [done | by apply decorate_delegate].
  - intros outcome request' Hw Hch.
    destruct (decide (req_method request = "GET")) as [|Hm]; [done | exfalso].
    unfold pagination in Hw. rewrite bool_decide_eq_true_2 in Hw by done.
    inversion Hw; subst. by destruct Hch.
Qed.

(** [authenticate], [allow] and [pagination] let no exception out: each
    error they can meet is caught and answered. *)
Lemma other_wrappers_never_throw (methods : list string)
    (default min_size max_size : Z) request err :
  (authenticate find_by_id request).1 ≠ Throw err ∧
  (allow methods request).1 ≠ Throw err ∧
  (pagination default min_size max_size request).1 ≠ Throw err.
Proof.
  split; [| split].
  - unfold authenticate, User_objects_get.
    by destruct (req_session request !! "user_id" ≫= find_by_id).
  - unfold allow. by case_bool_decide.
  - unfold pagination. case_bool_decide; [done |]. cbn zeta.
    destruct (PyInt.of_str (Py.query_get _ "page" _)) as [p | e] eqn:Hp.
    + destruct (PyInt.of_str (Py.query_get _ "size" _)) as [z | e] eqn:Hs;
        [done |].
      by rewrite (of_str_raises _ _ Hs).
    + by rewrite (of_str_raises _ _ Hp).
Qed.

(** C3. A GET request whose [page] and [size] texts both read as integers
    goes to the view with [request.page] the integer read for [page], as
    it is, and [request.size] the integer read for [size] brought into
    [min_size .. max_size]; with the defaults 10, 1 and 20, a size of
    [999] gives 20, a size of [0] gives 1, and a request without [page]
    and [size] gets page 1 and size 10. *)
Theorem pagination_get :
  (∀ (default min_size max_size : Z) request p s,
     req_method request = "GET" →
     PyInt.of_str (page_text request) = Ok p →
     PyInt.of_str (size_text default request) = Ok s →
     let request' :=
       set_size (Z.min (Z.max s min_size) max_size) (set_page p request) in
     pagination default min_size max_size request = (Delegate, request') ∧
     (∀ func, decorate (pagination default min_size max_size) func request
              = func request') ∧
     req_page request' = Some p ∧
     req_size request' = Some (Z.min (Z.max s min_size) max_size) ∧
     ((min_size ≤ max_size)%Z →
      (min_size ≤ Z.min (Z.max s min_size) max_size ≤ max_size)%Z)) ∧
  (∀ request p,
     req_method request = "GET" →
     PyInt.of_str (page_text request) = Ok p →
     (size_text 10 request = "999" →
      req_size (pagination 10 1 20 request).2 = Some 20) ∧
     (size_text 10 request = "0" →
      req_size (pagination 10 1 20 request).2 = Some 1)) ∧
  (∀ request,
     req_method request = "GET" →
     req_GET request !! "page" = None → req_GET request !! "size" = None →
     (pagination 10 1 20 request).1 = Delegate ∧
     req_page (pagination 10 1 20 request).2 = Some 1 ∧
     req_size (pagination 10 1 20 request).2 = Some 10).
Proof.
  assert (∀ (default min_size max_size : Z) request p s,
     req_method request = "GET" →
     PyInt.of_str (page_text request) = Ok p →
     PyInt.of_str (size_text default request) = Ok s →
     pagination default min_size max_size request
     = (Delegate,
        set_size (Z.min (Z.max s min_size) max_size) (set_page p request)))
    as Hrun.
  { intros default min_size max_size request p s Hm Hp Hs.
    unfold pagination. rewrite bool_decide_eq_false_2 by (by intros []).
    unfold page_text in Hp. unfold size_text in Hs. simpl in *.
    by rewrite Hp, Hs. }
  split; [| split].
  - intros default min_size max_size request p s Hm Hp Hs request'.
    repeat split; try done; try lia.
    + by apply Hrun.
    + apply decorate_delegate. by apply Hrun.
  - intros request p Hm Hp. split; intros Hs.
    + by rewrite (Hrun 10 1 20 request p 999 Hm Hp) by (by rewrite Hs).
    + by rewrite (Hrun 10 1 20 request p 0 Hm Hp) by (by rewrite Hs).
  - intros request Hm Hpage Hsize.
    rewrite (Hrun 10 1 20 request 1 10 Hm).
    + done.
    + unfold page_text, Py.query_get. by rewrite Hpage.
    + unfold size_text, Py.query_get. by rewrite Hsize.
Qed.

(** C10. A GET request whose [page] text reads as an integer and whose
    [size] text does not is answered with the error response, whatever
    the view is (it is not called), and [request.page] holds the integer
    read for [page] all the same: the request object is left half
    updated. *)
Theorem pagination_size_error (default min_size max_size : Z) request p err :
  req_method request = "GET" →
  PyInt.of_str (page_text request) = Ok p →
  PyInt.of_str (size_text default request) = Raise err →
  pagination default min_size max_size request
  = (Respond (HttpResponseIncorrectParameter err), set_page p request) ∧
  (∀ func, decorate (pagination default min_size max_size) func request
           = (Ok (HttpResponseIncorrectParameter err), set_page p request)) ∧
  req_page (set_page p request) = Some p ∧
  req_size (set_page p request) = req_size request.
Proof.
  intros Hm Hp Hs.
  assert (pagination default min_size max_size request
          = (Respond (HttpResponseIncorrectParameter err), set_page p request))
    as Hw.
  { unfold pagination. rewrite bool_decide_eq_false_2 by (by intros []).
    unfold page_text in Hp. unfold size_text in Hs. simpl in *.
    rewrite Hp, Hs. by rewrite (of_str_raises _ _ Hs). }
  split; [done | split; [by apply decorate_respond | done]].
Qed.

(** *** The comprehension of [parameter] *)

Lemma py_bind_ok {A B} (r : PyResult A) (k : A → PyResult B) b :
  py_bind r k = Ok b → ∃ a, r = Ok a ∧ k a = Ok b.
Proof. destruct r as [a | err]; simpl; [eauto | done]. Qed.

Lemma lookup_set key v d k :
  Py.lookup k (Py.set key v d)
  = if decide (key = k) then Some v else Py.lookup k d.
Proof.
  induction d as [| [k' w] d IH]; simpl.
  - done.
  - destruct (decide (k' = key)) as [-> | Hne]; simpl.
    + by destruct (decide (key = k)).
    + rewrite IH. destruct (decide (key = k)) as [<- | ?]; [| done].
      by rewrite decide_False.
Qed.

Lemma lookup_None_keys key (d : dict) : Py.lookup key d = None ↔ key ∉ d.*1.
Proof.
  induction d as [| [k w] d IH]; simpl.
  - split; [intros _; apply not_elem_of_nil | done].
  - rewrite not_elem_of_cons. destruct (decide (k = key)) as [-> | Hne].
    + split; [done | by intros [? _]].
    + rewrite IH. split; [by intros ? | by intros [_ ?]].
Qed.

Lemma lookup_Some_keys key (d : dict) :
  is_Some (Py.lookup key d) ↔ key ∈ d.*1.
Proof.
  rewrite <- not_eq_None_Some, lookup_None_keys.
  split; [apply dec_stable | eauto].
Qed.

Lemma set_keys key v (d : dict) :
  (Py.set key v d).*1
  = if decide (key ∈ d.*1) then d.*1 else (d.*1 ++ [key])%list.
Proof.
  induction d as [| [k w] d IH].
  - rewrite decide_False; [done | apply not_elem_of_nil].
  - cbn [Py.set]. rewrite fmap_cons. cbn [fst].
    destruct (decide (k = key)) as [-> | Hne].
    + rewrite decide_True; [done | left].
    + rewrite fmap_cons, IH. cbn [fst].
      destruct (decide (key ∈ d.*1)) as [Hin | Hin].
      * rewrite decide_True; [done | by right].
      * rewrite decide_False; [done |].
        rewrite not_elem_of_cons. by split.
Qed.

Lemma set_NoDup key v (d : dict) : NoDup d.*1 → NoDup (Py.set key v d).*1.
Proof.
  intros Hd. rewrite set_keys. case_decide; [done |].
  apply NoDup_app. split; [done |]. split; [| apply NoDup_singleton].
  intros k Hk ->%list_elem_of_singleton. done.
Qed.

(** What the comprehension leaves in the new [dict]: every key it went
    through was evaluated without an exception, and holds the value
    computed for it, if any; the other keys are as in the [dict] it
    started from. *)
Lemma data_items_lookup data (properties : dict) keys acc out :
  data_items data properties keys acc = Ok out →
  (∀ key, key ∈ keys → ∃ item, data_item data properties key = Ok item) ∧
  (∀ key,
     Py.lookup key out
     = if decide (key ∈ keys)
       then match data_item data properties key with
            | Ok (Some v) => Some v
            | _ => Py.lookup key acc
            end
       else Py.lookup key acc) ∧
  (NoDup acc.*1 → NoDup out.*1).
Proof.
  revert acc. induction keys as [| k keys IH]; intros acc; cbn [data_items].
  - intros [= ->]. split; [| split; [| done]].
    + by intros key ?%elem_of_nil.
    + intros key. rewrite decide_False; [done | apply not_elem_of_nil].
  - intros (item & Hk & Hrest)%py_bind_ok.
    destruct (IH _ Hrest) as (Hok & Hlook & Hnd). split; [| split].
    + intros key [-> | Hin]%elem_of_cons; eauto.
    + intros key. rewrite Hlook.
      destruct (decide (key ∈ keys)) as [Hin | Hin].
      * rewrite decide_True by (by right).
        destruct (Hok key Hin) as (item' & Hitem'). rewrite Hitem'.
        destruct item' as [v |]; [done |].
        destruct (decide (k = key)) as [-> | Hne].
        -- rewrite Hitem' in Hk. by injection Hk as <-.
        -- destruct item; [| done]. rewrite lookup_set. by rewrite decide_False.
      * destruct (decide (k = key)) as [-> | Hne].
        -- rewrite decide_True by left. rewrite Hk.
           destruct item; [| done]. rewrite lookup_set. by rewrite decide_True.
        -- rewrite decide_False
             by (rewrite not_elem_of_cons; split; [congruence | done]).
           destruct item; [| done]. rewrite lookup_set. by rewrite decide_False.
    + intros Hacc. apply Hnd. destruct item; [by apply set_NoDup | done].
Qed.

(** The comprehension raises only if the evaluation for one key does. *)
Lemma data_items_total data (properties : dict) keys acc :
  (∀ key, key ∈ keys → ∃ item, data_item data properties key = Ok item) →
  ∃ out, data_items data properties keys acc = Ok out.
Proof.
  revert acc. induction keys as [| k keys IH]; intros acc Hok; simpl.
  - eauto.
  - destruct (Hok k) as (item & ->); [left |]. simpl.
    apply IH. intros key Hin. apply Hok. by right.
Qed.

(** It depends on the input through the evaluation for each key only. *)
Lemma data_items_ext data data' (properties : dict) keys acc :
  (∀ key, key ∈ keys →
          data_item data' properties key = data_item data properties key) →
  data_items data' properties keys acc = data_items data properties keys acc.
Proof.
  revert acc. induction keys as [| k keys IH]; intros acc Heq; simpl.
  - done.
  - rewrite (Heq k) by left. destruct (data_item data properties k); simpl.
    + apply IH. intros key Hin. apply Heq. by right.
    + done.
Qed.

(** For an input that is a mapping and a property whose subschema is
    a [dict], the evaluation for the key raises nothing: it gives the
    value of the input for the key when there is one, the default of the
    property otherwise, if it declares one. *)
Lemma mapping_present data key v :
  is_mapping data → Py.getitem data key = Ok v →
  Py.contains data key = Ok true ∧ Py.get data key = Ok v.
Proof.
  destruct data as [| | | | | | d | q]; try done; simpl.
  - intros _. destruct (Py.lookup key d) as [w |] eqn:Hl; [| done].
    intros [= ->]. by rewrite bool_decide_eq_true_2 by eauto.
  - intros Hq. destruct (q !! key) as [l |] eqn:Hl; [| done].
    intros [= <-]. rewrite bool_decide_eq_true_2 by eauto. split; [done |].
    unfold Py.last_value. destruct (last l) eqn:Hlast; [done |].
    apply last_None in Hlast. by destruct (Hq key l Hl).
Qed.

Lemma mapping_absent data key err :
  is_mapping data → Py.getitem data key = Raise err →
  Py.contains data key = Ok false.
Proof.
  destruct data as [| | | | | | d | q]; try done; simpl; intros _.
  - destruct (Py.lookup key d) as [w |] eqn:Hl; [done |].
    intros _. rewrite bool_decide_eq_false_2; [done | by intros [? ?]].
  - destruct (q !! key) as [l |] eqn:Hl; [done |].
    intros _. rewrite bool_decide_eq_false_2; [done | by intros [? ?]].
Qed.

Lemma data_item_mapping data (properties : dict) key p :
  is_mapping data → Py.lookup key properties = Some (VDict p) →
  data_item data properties key
  = Ok (match Py.getitem data key with
        | Ok v => Some v
        | Raise _ => Py.lookup "default" p
        end).
Proof.
  intros Hm Hp. unfold data_item.
  destruct (Py.getitem data key) as [v | err] eqn:Hitem.
  - destruct (mapping_present _ _ _ Hm Hitem) as [-> ->]. done.
  - rewrite (mapping_absent _ _ _ Hm Hitem). simpl. rewrite Hp. simpl.
    destruct (Py.lookup "default" p) as [v |] eqn:Hd.
    + by rewrite bool_decide_eq_true_2 by eauto.
    + rewrite bool_decide_eq_false_2; [done | by intros [? ?]].
Qed.

(** Evaluating a key again, on the [dict] the comprehension has built,
    gives what the first evaluation gave. *)
Lemma data_item_again data (properties : dict) key item (out : dict) :
  data_item data properties key = Ok item →
  Py.lookup key out = item →
  data_item (VDict out) properties key = Ok item.
Proof.
  intros Hitem Hout. unfold data_item in *.
  set (has_default := py_bind (Py.getitem (VDict properties) key)
                        (fun prop => Py.contains prop "default")) in *.
  set (the_default := py_bind (Py.getitem (VDict properties) key)
                        (fun prop => Py.getitem prop "default")) in *.
  cbn [Py.contains Py.get]. rewrite Hout.
  destruct item as [v |].
  - by rewrite bool_decide_eq_true_2 by eauto.
  - rewrite bool_decide_eq_false_2 by (by intros [? ?]). cbn [py_bind].
    destruct (Py.contains data key) as [[] | err]; cbn [py_bind] in Hitem.
    + by destruct (Py.get data key).
    + destruct has_default as [[] | err]; cbn [py_bind] in *; [| done | done].
      by destruct the_default.
    + done.
Qed.

(** The comprehension run on the [dict] it has built builds that [dict]
    again. *)
Lemma normalize_again data (properties : dict) (d : dict) :
  normalize data properties = Ok d → normalize (VDict d) properties = Ok d.
Proof.
  unfold normalize. intros Hd. rewrite <- Hd. apply data_items_ext.
  destruct (data_items_lookup _ _ _ _ _ Hd) as (Hok & Hlook & _).
  intros key Hin. destruct (Hok key Hin) as (item & Hitem).
  rewrite Hitem. apply (data_item_again _ _ _ _ _ Hitem).
  rewrite Hlook, decide_True, Hitem by done. by destruct item.
Qed.

(** *** [parameter] *)

(** [parameter] goes on with the input it has chosen. *)
Lemma parameter_continues (schema : Schema) request data :
  input_data json_loads request = Ok data →
  continues_with json_loads validate schema request data.
Proof.
  intros Hd. unfold continues_with, parameter. rewrite Hd.
  split; [| split].
  - intros err -> Hi. by rewrite Hi.
  - by intros d -> ->.
  - by intros err -> ->.
Qed.

(** C2. [parameter] chooses its input in this order, and goes on with the
    input chosen (validates it, and normalises it into [request.data]):
    with the content type [application/json], the body as [json.loads]
    reads it, whatever the verb; otherwise, for POST, the form parameters;
    otherwise, for GET, the query parameters; otherwise the empty [dict].
    Without that content type the body is not read (the wrapper does the
    same for every JSON reader), and the outcome of the wrapper depends on
    the request through the chosen input only. *)
Theorem input_data_priority (schema : Schema) request :
  (is_json request →
   input_data json_loads request = json_loads (req_body request) ∧
   ∀ data, json_loads (req_body request) = Ok data →
           continues_with json_loads validate schema request data) ∧
  (¬ is_json request → req_method request = "POST" →
   input_data json_loads request = Ok (VQueryDict (req_POST request)) ∧
   continues_with json_loads validate schema request
     (VQueryDict (req_POST request))) ∧
  (¬ is_json request → req_method request = "GET" →
   input_data json_loads request = Ok (VQueryDict (req_GET request)) ∧
   continues_with json_loads validate schema request
     (VQueryDict (req_GET request))) ∧
  (¬ is_json request →
   req_method request ≠ "POST" → req_method request ≠ "GET" →
   input_data json_loads request = Ok (VDict []) ∧
   continues_with json_loads validate schema request (VDict [])) ∧
  (¬ is_json request →
   ∀ loads,
     input_data loads request = input_data json_loads request ∧
     parameter loads validate schema request
     = parameter json_loads validate schema request) ∧
  (∀ request2,
     input_data json_loads request2 = input_data json_loads request →
     (parameter json_loads validate schema request2).1
     = (parameter json_loads validate schema request).1).
Proof.
  assert (is_json request →
          input_data json_loads request = json_loads (req_body request))
    as Hjson.
  { unfold is_json, input_data. intros Hj. by rewrite bool_decide_eq_true_2. }
  assert (∀ loads, ¬ is_json request →
            input_data loads request
            = if bool_decide (req_method request = "POST")
              then Ok (VQueryDict (req_POST request))
              else if bool_decide (req_method request = "GET")
                   then Ok (VQueryDict (req_GET request))
                   else Ok (VDict [])) as Hother.
  { unfold is_json, input_data. intros loads Hj.
    by rewrite bool_decide_eq_false_2. }
  split; [| split; [| split; [| split; [| split]]]].
  - intros Hj. split; [by apply Hjson |]. intros data Hd.
    apply parameter_continues. by rewrite Hjson.
  - intros Hj Hm.
    assert (input_data json_loads request
            = Ok (VQueryDict (req_POST request))) as Hd
      by (by rewrite Hother, bool_decide_eq_true_2).
    split; [done | by apply parameter_continues].
  - intros Hj Hm.
    assert (input_data json_loads request
            = Ok (VQueryDict (req_GET request))) as Hd.
    { rewrite Hother by done.
      rewrite bool_decide_eq_false_2 by (by rewrite Hm).
      by rewrite bool_decide_eq_true_2. }
    split; [done | by apply parameter_continues].
  - intros Hj Hpost Hget.
    assert (input_data json_loads request = Ok (VDict [])) as Hd
      by (by rewrite Hother, !bool_decide_eq_false_2).
    split; [done | by apply parameter_continues].
  - intros Hj loads.
    assert (input_data loads request = input_data json_loads request) as Heq
      by (by rewrite !Hother).
    split; [done |]. unfold parameter. by rewrite Heq.
  - intros request2 Heq. unfold parameter. rewrite Heq.
    destruct (input_data json_loads request) as [data | err]; simpl.
    + destruct (validate data schema) as [[] | err]; simpl.
      * by destruct (normalize _ _).
      * by destruct (isinstance _ _).
    + by destruct (isinstance _ _).
Qed.

(** The errors that [parameter] catches: it answers by itself exactly
    when [json.loads] raises [JSONDecodeError] on the body of a request of
    content type [application/json], or the validator raises
    [ValidationError] on the chosen input; the answer is then the error
    response built from that error, the view is not called and the
    request object is as it came. *)
Theorem parameter_error_response (schema : Schema) request :
  (∀ response request',
     parameter json_loads validate schema request = (Respond response, request')
     ↔ request' = request ∧
       ∃ err, response = HttpResponseIncorrectParameter err ∧
              (parse_failure json_loads request err ∨
               validation_failure json_loads validate schema request err)) ∧
  (∀ err,
     parse_failure json_loads request err ∨
     validation_failure json_loads validate schema request err →
     ∀ func, decorate (parameter json_loads validate schema) func request
             = (Ok (HttpResponseIncorrectParameter err), request)) ∧
  (∀ err1 err2,
     isinstance err1 JSONDecodeError = true →
     isinstance err2 ValidationError = true →
     HttpResponseIncorrectParameter err1 ≠ HttpResponseIncorrectParameter err2).
Proof.
  assert (∀ err,
    parse_failure json_loads request err ∨
    validation_failure json_loads validate schema request err →
    parameter json_loads validate schema request
    = (Respond (HttpResponseIncorrectParameter err), request)) as Hfail.
  { intros err [(Hj & Hl & Hi) | (data & Hd & Hv & Hi)]; unfold parameter.
    - unfold input_data. rewrite bool_decide_eq_true_2 by done.
      by rewrite Hl, Hi.
    - by rewrite Hd, Hv, Hi. }
  split; [| split].
  - intros response request'. split.
    + unfold parameter.
      destruct (input_data json_loads request) as [data | err] eqn:Hd.
      * destruct (validate data schema) as [[] | err] eqn:Hv.
        -- destruct (normalize _ _); intros [=].
        -- destruct (isinstance err ValidationError) eqn:Hi; intros [=]; subst.
           split; [done |]. exists err. split; [done | right].
           by exists data.
      * destruct (isinstance err JSONDecodeError) eqn:Hi; intros [=]; subst.
        split; [done |]. exists err. split; [done | left].
        unfold input_data in Hd. unfold parse_failure, is_json.
        case_bool_decide; [done |].
        by repeat case_bool_decide.
    + intros (-> & err & -> & Herr). by apply Hfail.
  - intros err Herr. apply decorate_respond. by apply Hfail.
  - intros [c1 t1] [c2 t2] H1 H2 [= -> ->].
    unfold isinstance in *. simpl in *. by destruct c2.
Qed.

(** C4 (where the code departs from it). A body that [json.loads] cannot
    read makes it raise; line 64 catches [JSONDecodeError] only.  When the
    body of a JSON request fails to parse with an error of another class
    (a body that is no UTF-8 text raises [UnicodeDecodeError]), the error
    leaves the wrapper: no error response is returned, and the decorated
    view raises whatever the view is. *)
Theorem parameter_parse_error_escapes (schema : Schema) request err :
  is_json request →
  json_loads (req_body request) = Raise err →
  isinstance err JSONDecodeError = false →
  parameter json_loads validate schema request = (Throw err, request) ∧
  (∀ response,
     (parameter json_loads validate schema request).1 ≠ Respond response) ∧
  ∀ func, decorate (parameter json_loads validate schema) func request
          = (Raise err, request).
Proof.
  intros Hj Hl Hi.
  assert (parameter json_loads validate schema request = (Throw err, request))
    as Hw.
  { unfold parameter, input_data, is_json in *.
    rewrite bool_decide_eq_true_2 by done. by rewrite Hl, Hi. }
  split; [done |]. split; [by rewrite Hw | by apply decorate_throw].
Qed.

(** C1. For a schema with a [properties] mapping (of subschemas that are
    mappings) and an input mapping that the validator accepts,
    [parameter] sets [request.data] and goes to the view.  The keys of
    [request.data] are the property names that are keys of the input or
    whose subschema has a [default]; a property that is a key of the
    input gets the value of the input, whatever it is; a property that is
    not, and has a default, gets the default; no other key is there. *)
Theorem parameter_data (schema : Schema) (properties : dict) request data :
  schema_properties schema = Some properties →
  (∀ key prop, Py.lookup key properties = Some prop → ∃ p, prop = VDict p) →
  input_data json_loads request = Ok data →
  is_mapping data →
  validate data schema = Ok () →
  ∃ d : dict,
    parameter json_loads validate schema request
    = (Delegate, set_data d request) ∧
    (∀ func, decorate (parameter json_loads validate schema) func request
             = func (set_data d request)) ∧
    req_data (set_data d request) = Some d ∧
    NoDup d.*1 ∧
    (∀ key, key ∈ d.*1 ↔
            ∃ prop, Py.lookup key properties = Some prop ∧
                    (Py.contains data key = Ok true ∨
                     Py.contains prop "default" = Ok true)) ∧
    (∀ key v, key ∈ properties.*1 → Py.getitem data key = Ok v →
              Py.lookup key d = Some v) ∧
    (∀ key prop v,
       Py.lookup key properties = Some prop →
       Py.contains data key = Ok false →
       Py.getitem prop "default" = Ok v →
       Py.lookup key d = Some v) ∧
    (∀ key, key ∉ properties.*1 → Py.lookup key d = None).
Proof.
  intros Hprops Hsub Hdata Hmap Hvalid.
  assert (∀ key, key ∈ properties.*1 →
            ∃ p, Py.lookup key properties = Some (VDict p) ∧
                 data_item data properties key
                 = Ok (match Py.getitem data key with
                       | Ok v => Some v
                       | Raise _ => Py.lookup "default" p
                       end)) as Hitem.
  { intros key [prop Hprop]%lookup_Some_keys.
    destruct (Hsub _ _ Hprop) as [p ->]. exists p. split; [done |].
    by apply data_item_mapping. }
  destruct (data_items_total data properties properties.*1 []) as [d Hd].
  { intros key Hin. destruct (Hitem key Hin) as (p & _ & ->). eauto. }
  destruct (data_items_lookup _ _ _ _ _ Hd) as (_ & Hlook & Hnd).
  assert (parameter json_loads validate schema request
          = (Delegate, set_data d request)) as Hw.
  { unfold parameter. rewrite Hdata, Hvalid, Hprops. simpl.
    unfold normalize. by rewrite Hd. }
  exists d. split; [done |]. split; [by apply decorate_delegate |].
  split; [done |]. split; [apply Hnd; constructor |]. repeat split.
  - intros Hin%lookup_Some_keys. rewrite Hlook in Hin.
    destruct (decide (key ∈ properties.*1)) as [Hk | Hk];
      [| by destruct Hin].
    destruct (Hitem key Hk) as (p & Hp & Hi). rewrite Hi in Hin.
    exists (VDict p). split; [done |].
    destruct (Py.getitem data key) as [v | err] eqn:Hg.
    + left. by apply (mapping_present _ _ _ Hmap Hg).
    + right. cbn [Py.contains].
      destruct (Py.lookup "default" p); [| by destruct Hin].
      by rewrite bool_decide_eq_true_2 by eauto.
  - intros (prop & Hprop & Hor). apply lookup_Some_keys. rewrite Hlook.
    assert (key ∈ properties.*1) as Hk by (apply lookup_Some_keys; eauto).
    rewrite decide_True by done.
    destruct (Hitem key Hk) as (p & Hp & ->).
    rewrite Hprop in Hp. injection Hp as ->.
    destruct (Py.getitem data key) as [v | err] eqn:Hg; [eauto |].
    destruct Hor as [Hc | Hc].
    + rewrite (mapping_absent _ _ _ Hmap Hg) in Hc. done.
    + cbn [Py.contains] in Hc. injection Hc as Hc.
      apply bool_decide_eq_true_1 in Hc as [v Hv]. rewrite Hv. eauto.
  - intros key v Hk Hg. rewrite Hlook, decide_True by done.
    destruct (Hitem key Hk) as (p & _ & ->). by rewrite Hg.
  - intros key prop v Hprop Hc Hdef. rewrite Hlook.
    assert (key ∈ properties.*1) as Hk by (apply lookup_Some_keys; eauto).
    rewrite decide_True by done.
    destruct (Hitem key Hk) as (p & Hp & ->).
    rewrite Hprop in Hp. injection Hp as ->.
    destruct (Py.getitem data key) as [w | err] eqn:Hg.
    + destruct (mapping_present _ _ _ Hmap Hg) as [Hc' _]. congruence.
    + cbn [Py.getitem] in Hdef.
      destruct (Py.lookup "default" p); [by injection Hdef as -> | done].
  - intros key Hk. rewrite Hlook. by rewrite decide_False.
Qed.

(** C5. Normalising twice is normalising once: when [parameter] has set
    [request.data] to a [dict], the comprehension run on that [dict] for
    the same schema builds it again, and [parameter], on a request whose
    input is that [dict] and which the validator accepts again, sets
    [request.data] to the same [dict]. *)
Theorem parameter_idempotent (schema : Schema) request request' :
  parameter json_loads validate schema request = (Delegate, request') →
  ∃ d : dict,
    req_data request' = Some d ∧
    normalize (VDict d) (default [] (schema_properties schema)) = Ok d ∧
    ∀ request2,
      input_data json_loads request2 = Ok (VDict d) →
      validate (VDict d) schema = Ok () →
      parameter json_loads validate schema request2
      = (Delegate, set_data d request2).
Proof.
  unfold parameter at 1.
  destruct (input_data json_loads request) as [data | err]; simpl;
    [| by destruct (isinstance _ _)].
  destruct (validate data schema) as [[] | err]; simpl;
    [| by destruct (isinstance _ _)].
  destruct (normalize data _) as [d | err] eqn:Hd; intros [= <-].
  apply normalize_again in Hd.
  exists d. split; [done |]. split; [done |].
  intros request2 Hin Hv. unfold parameter. by rewrite Hin, Hv, Hd.
Qed.

(** C6 (where the code departs from it). When the body of a JSON request
    reads as [null], a boolean or a number, the validator accepts it and
    the schema declares a property, [parameter] lets a [TypeError] out:
    the membership test of the comprehension raises it, nothing catches
    it, and the decorated view raises it whatever the view is. *)
Theorem parameter_scalar_raises (schema : Schema) key prop (properties : dict)
    request data :
  input_data json_loads request = Ok data →
  is_scalar data →
  validate data schema = Ok () →
  schema_properties schema = Some ((key, prop) :: properties) →
  let err := mkExc TypeError "argument is not iterable" in
  parameter json_loads validate schema request = (Throw err, request) ∧
  ∀ func, decorate (parameter json_loads validate schema) func request
          = (Raise err, request).
Proof.
  intros Hdata Hscalar Hvalid Hprops err.
  assert (parameter json_loads validate schema request = (Throw err, request))
    as Hw.
  { unfold parameter. rewrite Hdata, Hvalid, Hprops. simpl.
    unfold normalize. simpl. unfold data_item.
    by destruct data. }
  split; [done | by apply decorate_throw].
Qed.

End Properties.

(** ** The wrappers on concrete requests *)

(** [int] and [str] on a few texts. *)
Example int_examples :
  PyInt.of_str "999" = Ok 999 ∧ PyInt.of_str " -1_000 " = Ok (-1000) ∧
  PyInt.of_str "007" = Ok 7 ∧ PyInt.of_str "+5" = Ok 5 ∧
  PyInt.of_str "1__0" = Raise (mkExc ValueError "1__0") ∧
  PyInt.of_str "" = Raise (mkExc ValueError "") ∧
  PyInt.of_str "ten" = Raise (mkExc ValueError "ten") ∧
  PyInt.to_str 10 = "10" ∧ PyInt.to_str 0 = "0" ∧ PyInt.to_str (-42) = "-42".
Proof. repeat split; reflexivity. Qed.

(** The scenarios of the specification, run. *)
Example scenario_default_filled :
  parameter Sample.json_loads Sample.validate Sample.schema_default
    (Sample.request "POST" (Some "application/json") "{}" ∅)
  = (Delegate,
     set_data [("name", VStr "anon")]
       (Sample.request "POST" (Some "application/json") "{}" ∅)).
Proof. vm_compute. reflexivity. Qed.

Example scenario_no_default :
  parameter Sample.json_loads Sample.validate Sample.schema_plain
    (Sample.request "POST" (Some "application/json") "{}" ∅)
  = (Delegate,
     set_data [] (Sample.request "POST" (Some "application/json") "{}" ∅)).
Proof. vm_compute. reflexivity. Qed.

Example scenario_form :
  parameter Sample.json_loads Sample.validate Sample.schema_plain
    (Sample.form_request {["name" := ["alice"]]})
  = (Delegate,
     set_data [("name", VStr "alice")]
       (Sample.form_request {["name" := ["alice"]]})).
Proof. vm_compute. reflexivity. Qed.

Example scenario_not_json :
  (parameter Sample.json_loads Sample.validate Sample.schema_plain
     (Sample.request "POST" (Some "application/json") "not-json" ∅)).1
  = Respond (HttpResponseIncorrectParameter
               (mkExc JSONDecodeError
                  "Expecting value: line 1 column 1 (char 0)")).
Proof. vm_compute. reflexivity. Qed.

Example scenario_pagination_defaults :
  pagination 10 1 20 (Sample.request "GET" None "" ∅)
  = (Delegate,
     set_size 10 (set_page 1 (Sample.request "GET" None "" ∅))).
Proof. vm_compute. reflexivity. Qed.

(** The theorems above, at concrete requests. *)

Lemma authenticate_session_run :
  authenticate Sample.find_by_id (Sample.request "GET" None "" ∅)
  = (Respond (HttpResponse 401 ""), Sample.request "GET" None "" ∅) ∧
  authenticate Sample.find_by_id (Sample.session_request "unknown")
  = (Respond (HttpResponse 401 ""), Sample.session_request "unknown") ∧
  authenticate Sample.find_by_id
    (Sample.session_request "0123456789abcdef0123456789abcdef")
  = (Delegate,
     set_user "alice"
       (Sample.session_request "0123456789abcdef0123456789abcdef")).
Proof.
  split; [| split].
  - apply (authenticate_session Sample.find_by_id
             (Sample.request "GET" None "" ∅)).
    left. reflexivity.
  - apply (authenticate_session Sample.find_by_id
             (Sample.session_request "unknown")).
    right. exists "unknown". split; reflexivity.
  - apply (proj2 (authenticate_session Sample.find_by_id
                    (Sample.session_request "0123456789abcdef0123456789abcdef"))
             "0123456789abcdef0123456789abcdef" "alice"); reflexivity.
Defined.

Lemma allow_methods_run :
  allow ["GET"; "POST"] (Sample.request "DELETE" None "" ∅)
  = (Respond (HttpResponse 404 ""), Sample.request "DELETE" None "" ∅) ∧
  allow ["GET"; "POST"] (Sample.request "POST" None "" ∅)
  = (Delegate, Sample.request "POST" None "" ∅).
Proof.
  split.
  - apply (allow_methods ["GET"; "POST"] (Sample.request "DELETE" None "" ∅)).
    rewrite !not_elem_of_cons. repeat split; [done | done |].
    apply not_elem_of_nil.
  - apply (allow_methods ["GET"; "POST"] (Sample.request "POST" None "" ∅)).
    right. left.
Defined.

Lemma pagination_not_get_run :
  pagination 10 1 20 (Sample.request "POST" None "" {["size" := ["5"]]})
  = (Delegate, Sample.request "POST" None "" {["size" := ["5"]]}).
Proof.
  by apply (pagination_not_get 10 1 20
              (Sample.request "POST" None "" {["size" := ["5"]]})).
Defined.

Lemma pagination_get_run :
  pagination 10 1 20
    (Sample.request "GET" None "" {["page" := ["-3"]; "size" := ["999"]]})
  = (Delegate,
     set_size 20
       (set_page (-3)
          (Sample.request "GET" None ""
             {["page" := ["-3"]; "size" := ["999"]]}))) ∧
  req_size
    (pagination 10 1 20 (Sample.request "GET" None "" {["size" := ["0"]]})).2
  = Some 1 ∧
  req_page (pagination 10 1 20 (Sample.request "GET" None "" ∅)).2 = Some 1 ∧
  req_size (pagination 10 1 20 (Sample.request "GET" None "" ∅)).2 = Some 10.
Proof.
  destruct (@pagination_get string string) as (Hgen & Hsize & Hnone).
  split; [| split].
  - by apply (Hgen 10 1 20
                (Sample.request "GET" None ""
                   {["page" := ["-3"]; "size" := ["999"]]}) (-3) 999).
  - by apply (Hsize (Sample.request "GET" None "" {["size" := ["0"]]}) 1).
  - by apply (Hnone (Sample.request "GET" None "" ∅)).
Defined.

Lemma pagination_size_error_run :
  pagination 10 1 20
    (Sample.request "GET" None "" {["page" := ["2"]; "size" := ["many"]]})
  = (Respond (HttpResponseIncorrectParameter (mkExc ValueError "many")),
     set_page 2
       (Sample.request "GET" None "" {["page" := ["2"]; "size" := ["many"]]})).
Proof.
  by apply (pagination_size_error 10 1 20
              (Sample.request "GET" None ""
                 {["page" := ["2"]; "size" := ["many"]]})
              2 (mkExc ValueError "many")).
Defined.

Lemma input_data_priority_run :
  parameter Sample.json_loads Sample.validate Sample.schema_default
    (Sample.request "GET" (Some "application/json") "{}" {["name" := ["bob"]]})
  = (Delegate,
     set_data [("name", VStr "anon")]
       (Sample.request "GET" (Some "application/json") "{}"
          {["name" := ["bob"]]})) ∧
  parameter Sample.json_loads Sample.validate Sample.schema_default
    (Sample.form_request {["name" := ["alice"]]})
  = (Delegate,
     set_data [("name", VStr "alice")]
       (Sample.form_request {["name" := ["alice"]]})) ∧
  parameter Sample.json_loads Sample.validate Sample.schema_default
    (Sample.request "GET" (Some "text/plain") "{}" {["name" := ["bob"]]})
  = (Delegate,
     set_data [("name", VStr "bob")]
       (Sample.request "GET" (Some "text/plain") "{}" {["name" := ["bob"]]})) ∧
  parameter Sample.json_loads Sample.validate Sample.schema_default
    (Sample.request "DELETE" None "{}" {["name" := ["bob"]]})
  = (Delegate,
     set_data [("name", VStr "anon")]
       (Sample.request "DELETE" None "{}" {["name" := ["bob"]]})).
Proof.
  split; [| split; [| split]].
  - destruct (input_data_priority Sample.json_loads Sample.validate
                Sample.schema_default
                (Sample.request "GET" (Some "application/json") "{}"
                   {["name" := ["bob"]]})) as (Hjson & _).
    destruct Hjson as [_ Hgo]; [done |].
    destruct (Hgo (VDict []) eq_refl) as (_ & Hok & _). by apply Hok.
  - destruct (input_data_priority Sample.json_loads Sample.validate
                Sample.schema_default
                (Sample.form_request {["name" := ["alice"]]}))
      as (_ & Hpost & _).
    destruct Hpost as [_ (_ & Hok & _)]; [done | done |]. by apply Hok.
  - destruct (input_data_priority Sample.json_loads Sample.validate
                Sample.schema_default
                (Sample.request "GET" (Some "text/plain") "{}"
                   {["name" := ["bob"]]})) as (_ & _ & Hget & _).
    destruct Hget as [_ (_ & Hok & _)]; [done | done |]. by apply Hok.
  - destruct (input_data_priority Sample.json_loads Sample.validate
                Sample.schema_default
                (Sample.request "DELETE" None "{}" {["name" := ["bob"]]}))
      as (_ & _ & _ & Hother & _).
    destruct Hother as [_ (_ & Hok & _)]; [done | done | done |].
    by apply Hok.
Defined.

Lemma parameter_parse_error_escapes_run :
  parameter MoreSamples.bytes_loads Sample.validate Sample.schema_plain
    (Sample.request "POST" (Some "application/json") MoreSamples.undecodable ∅)
  = (Throw (mkExc UnicodeDecodeError
              "'utf-8' codec can't decode byte 0xff in position 0"),
     Sample.request "POST" (Some "application/json") MoreSamples.undecodable
       ∅).
Proof.
  by apply (parameter_parse_error_escapes MoreSamples.bytes_loads
              Sample.validate Sample.schema_plain
              (Sample.request "POST" (Some "application/json")
                 MoreSamples.undecodable ∅)).
Defined.

Lemma parameter_error_response_run :
  parameter Sample.json_loads Sample.validate Sample.schema_plain
    (Sample.request "POST" (Some "application/json") "not-json" ∅)
  = (Respond (HttpResponseIncorrectParameter
                (mkExc JSONDecodeError
                   "Expecting value: line 1 column 1 (char 0)")),
     Sample.request "POST" (Some "application/json") "not-json" ∅) ∧
  parameter Sample.json_loads Sample.validate Sample.schema_object
    (Sample.request "POST" (Some "application/json") "5" ∅)
  = (Respond (HttpResponseIncorrectParameter
                (mkExc ValidationError "is not of type 'object'")),
     Sample.request "POST" (Some "application/json") "5" ∅).
Proof.
  split.
  - apply (parameter_error_response Sample.json_loads Sample.validate
             Sample.schema_plain
             (Sample.request "POST" (Some "application/json") "not-json" ∅)).
    split; [done |]. eexists. split; [done |]. left. by repeat split.
  - apply (parameter_error_response Sample.json_loads Sample.validate
             Sample.schema_object
             (Sample.request "POST" (Some "application/json") "5" ∅)).
    split; [done |]. eexists. split; [done |]. right.
    exists (VInt 5). by repeat split.
Defined.

Lemma parameter_data_run :
  (∃ d : dict,
     parameter Sample.json_loads Sample.validate Sample.schema_default
       (Sample.form_request {["name" := [""]; "extra" := ["x"]]})
     = (Delegate,
        set_data d (Sample.form_request {["name" := [""]; "extra" := ["x"]]})) ∧
     Py.lookup "name" d = Some (VStr "") ∧ Py.lookup "extra" d = None) ∧
  (∃ d : dict,
     parameter Sample.json_loads Sample.validate Sample.schema_default
       (Sample.request "POST" (Some "application/json") "{}" ∅)
     = (Delegate,
        set_data d (Sample.request "POST" (Some "application/json") "{}" ∅)) ∧
     Py.lookup "name" d = Some (VStr "anon")).
Proof.
  assert (∀ key prop,
            Py.lookup key [("name", VDict [("default", VStr "anon")])]
            = Some prop → ∃ p, prop = VDict p) as Hsub.
  { intros key prop. cbn [Py.lookup].
    destruct (decide ("name" = key)); [| done]. intros [= <-]. eauto. }
  split.
  - destruct (parameter_data Sample.json_loads Sample.validate
                Sample.schema_default
                [("name", VDict [("default", VStr "anon")])]
                (Sample.form_request {["name" := [""]; "extra" := ["x"]]})
                (VQueryDict {["name" := [""]; "extra" := ["x"]]}))
      as (d & Hw & _ & _ & _ & _ & Hin & _ & Hout); [done | done | done | |
        done |].
    { cbn [is_mapping]. apply map_Forall_insert_2; [done |].
      by apply map_Forall_singleton. }
    exists d. split; [done |]. split.
    + apply Hin; [left | reflexivity].
    + apply Hout. cbn. rewrite not_elem_of_cons.
      split; [done | apply not_elem_of_nil].
  - destruct (parameter_data Sample.json_loads Sample.validate
                Sample.schema_default
                [("name", VDict [("default", VStr "anon")])]
                (Sample.request "POST" (Some "application/json") "{}" ∅)
                (VDict []))
      as (d & Hw & _ & _ & _ & _ & _ & Hdef & _); [done..|].
    exists d. split; [done |].
    by apply (Hdef "name" (VDict [("default", VStr "anon")])).
Defined.

Lemma parameter_idempotent_run :
  normalize (VDict [("name", VStr "anon")])
    [("name", VDict [("default", VStr "anon")])]
  = Ok [("name", VStr "anon")].
Proof.
  destruct (parameter_idempotent Sample.json_loads Sample.validate
              Sample.schema_default
              (Sample.request "POST" (Some "application/json") "{}" ∅)
              (set_data [("name", VStr "anon")]
                 (Sample.request "POST" (Some "application/json") "{}" ∅)))
    as (d & Hd & Hn & _); [by vm_compute |].
  injection Hd as <-. exact Hn.
Defined.

Lemma parameter_scalar_raises_run :
  parameter Sample.json_loads Sample.validate Sample.schema_plain
    (Sample.request "POST" (Some "application/json") "5" ∅)
  = (Throw (mkExc TypeError "argument is not iterable"),
     Sample.request "POST" (Some "application/json") "5" ∅).
Proof.
  by apply (parameter_scalar_raises Sample.json_loads Sample.validate
              Sample.schema_plain "name" (VDict []) []
              (Sample.request "POST" (Some "application/json") "5" ∅)
              (VInt 5)).
Defined.

(** ** Further properties of the wrappers *)

(** *** [int(str(n))] *)

Section IntStr.

Import Decimal.










End IntStr.

(** *** [pagination], beyond the cases above *)

Section Further.

Context {UserId User : Type}.
Variable find_by_id : UserId → option User.
Variable json_loads : string → PyResult value.
Variable validate : value → Schema → PyResult unit.

Implicit Types (request : Request UserId User) (func : View UserId User).

(** What [pagination] does with a GET request, by what [int] makes of the
    two texts. *)
Lemma pagination_get_cases (default min_size max_size : Z) request :
  req_method request = "GET" →
  pagination default min_size max_size request
  = match PyInt.of_str (page_text request) with
    | Raise err => (Respond (HttpResponseIncorrectParameter err), request)
    | Ok p =>
        match PyInt.of_str (size_text default request) with
        | Raise err =>
            (Respond (HttpResponseIncorrectParameter err), set_page p request)
        | Ok s =>
            (Delegate,
             set_size (Z.min (Z.max s min_size) max_size) (set_page p request))
        end
    end.
Proof.
  intros Hm. unfold pagination, page_text, size_text.
  rewrite bool_decide_eq_false_2 by (by intros []). cbn zeta.
  destruct (PyInt.of_str (Py.query_get _ "page" _)) as [p | e] eqn:Hp.
  - destruct (PyInt.of_str (Py.query_get _ "size" _)) as [z | e] eqn:Hs;
      [done |].
    by rewrite (of_str_raises _ _ Hs).
  - by rewrite (of_str_raises _ _ Hp).
Qed.

(** A GET request whose [page] text is no integer is answered with the
    error response built from the [ValueError] of that text, whatever the
    [size] text is; the view is not called and the request object is as it
    came (neither [request.page] nor [request.size] is set). *)
Theorem pagination_page_error (default min_size max_size : Z) request err :
  req_method request = "GET" →
  PyInt.of_str (page_text request) = Raise err →
  pagination default min_size max_size request
  = (Respond (HttpResponseIncorrectParameter err), request) ∧
  err = mkExc ValueError (page_text request) ∧
  ∀ func, decorate (pagination default min_size max_size) func request
          = (Ok (HttpResponseIncorrectParameter err), request).
Proof.
  intros Hm Hp.
  assert (pagination default min_size max_size request
          = (Respond (HttpResponseIncorrectParameter err), request)) as Hw
    by (by rewrite pagination_get_cases, Hp).
  split; [done |]. split; [by apply of_str_raises |].
  by apply decorate_respond.
Qed.

(** [pagination] lets no exception out.  It calls the view exactly when the
    verb is not GET or both texts are integers, and answers by itself
    exactly when the verb is GET and one of the texts is no integer. *)
Theorem pagination_answers (default min_size max_size : Z) request :
  ((pagination default min_size max_size request).1 = Delegate ↔
   req_method request ≠ "GET" ∨
   ((∃ p, PyInt.of_str (page_text request) = Ok p) ∧
    (∃ s, PyInt.of_str (size_text default request) = Ok s))) ∧
  ((∃ response,
      (pagination default min_size max_size request).1 = Respond response) ↔
   req_method request = "GET" ∧
   ((∃ err, PyInt.of_str (page_text request) = Raise err) ∨
    (∃ err, PyInt.of_str (size_text default request) = Raise err))) ∧
  (∀ err, (pagination default min_size max_size request).1 ≠ Throw err).
Proof.
  destruct (decide (req_method request = "GET")) as [Hm | Hm].
  - rewrite (pagination_get_cases _ _ _ _ Hm).
    destruct (PyInt.of_str (page_text request)) as [p | e];
      [destruct (PyInt.of_str (size_text default request)) as [z | e] |];
      cbn [fst]; (split; [| split]); try done.
    + split; [| done]. intros _. right. eauto.
    + split; [by intros [? [=]] |]. by intros (_ & [[? [=]] | [? [=]]]).
    + split; [done |]. by intros [? | [_ [? [=]]]].
    + split; [| eauto]. intros _. split; [done |]. right. eauto.
    + split; [done |]. by intros [? | [[? [=]] _]].
    + split; [| eauto]. intros _. split; [done |]. left. eauto.
  - unfold pagination. rewrite bool_decide_eq_true_2 by done. cbn [fst].
    split; [| split]; try done.
    + split; [by left | done].
    + split; [by intros [? [=]] | by intros [? _]].
Qed.

(** How the size is clamped, for a GET request that reaches the view: the
    size stored never exceeds [max_size]; a size read within the bounds is
    kept; one below [min_size] becomes [min_size] (when the bounds are in
    order), one above [max_size] becomes [max_size]; with bounds out of
    order ([max_size < min_size]) every request gets [max_size]. *)
Theorem pagination_size_clamp (default min_size max_size : Z) request p s :
  req_method request = "GET" →
  PyInt.of_str (page_text request) = Ok p →
  PyInt.of_str (size_text default request) = Ok s →
  ∃ stored : Z,
    req_size (pagination default min_size max_size request).2 = Some stored ∧
    (stored ≤ max_size)%Z ∧
    ((min_size ≤ s ≤ max_size)%Z → stored = s) ∧
    ((s < min_size ≤ max_size)%Z → stored = min_size) ∧
    ((max_size < s)%Z → stored = max_size) ∧
    ((max_size < min_size)%Z → stored = max_size).
Proof.
  intros Hm Hp Hs. exists (Z.min (Z.max s min_size) max_size).
  rewrite (pagination_get_cases _ _ _ _ Hm), Hp, Hs. cbn.
  repeat split; lia.
Qed.


(** *** [parameter], beyond the cases above *)

(** [parameter] reaches the view exactly through a parsed, validated and
    normalised input. *)
Lemma parameter_delegate_intro (schema : Schema) request data (d : dict) :
  input_data json_loads request = Ok data →
  validate data schema = Ok () →
  normalize data (default [] (schema_properties schema)) = Ok d →
  parameter json_loads validate schema request = (Delegate, set_data d request).
Proof. intros Hd Hv Hn. unfold parameter. by rewrite Hd, Hv, Hn. Qed.

Lemma parameter_delegate_inv (schema : Schema) request :
  (parameter json_loads validate schema request).1 = Delegate →
  ∃ data (d : dict),
    input_data json_loads request = Ok data ∧
    validate data schema = Ok () ∧
    normalize data (default [] (schema_properties schema)) = Ok d.
Proof.
  unfold parameter.
  destruct (input_data json_loads request) as [data | err] eqn:Hd;
    [| by destruct (isinstance _ _)].
  destruct (validate data schema) as [[] | err] eqn:Hv;
    [| by destruct (isinstance _ _)].
  destruct (normalize data _) as [d | err] eqn:Hn; [| done].
  intros _. by exists data, d.
Qed.

(** When no property name is found in the input, the comprehension keeps
    the declared defaults and nothing else. *)
Lemma normalize_absent data (properties : dict) :
  (∀ key prop, Py.lookup key properties = Some prop → ∃ p, prop = VDict p) →
  (∀ key, key ∈ properties.*1 → Py.contains data key = Ok false) →
  ∃ d : dict,
    normalize data properties = Ok d ∧
    ∀ key, Py.lookup key d = declared_default properties key.
Proof.
  intros Hsub Habsent.
  assert (∀ key, key ∈ properties.*1 →
            data_item data properties key
            = Ok (declared_default properties key)) as Hitem.
  { intros key Hin. pose proof Hin as [prop Hprop]%lookup_Some_keys.
    destruct (Hsub _ _ Hprop) as [p ->].
    unfold data_item, declared_default. rewrite (Habsent key Hin).
    cbn [py_bind Py.getitem]. rewrite Hprop. cbn [py_bind Py.contains].
    destruct (Py.lookup "default" p) as [v |] eqn:Hd.
    - rewrite bool_decide_eq_true_2 by eauto. cbn [py_bind Py.getitem].
      by rewrite Hd.
    - by rewrite bool_decide_eq_false_2 by (by intros [? ?]). }
  destruct (data_items_total data properties properties.*1 []) as [d Hd];
    [eauto |].
  exists d. split; [done |]. intros key.
  destruct (data_items_lookup _ _ _ _ _ Hd) as (_ & -> & _).
  destruct (decide (key ∈ properties.*1)) as [Hin | Hin].
  - rewrite (Hitem key Hin). by destruct (declared_default properties key).
  - unfold declared_default.
    by rewrite (proj2 (lookup_None_keys key properties) Hin).
Qed.

(** A schema without a [properties] keyword, or with an empty one, gives
    [request.data == {}] for every input that parses and validates, be it
    a mapping or not: the comprehension has nothing to look up. *)
Theorem parameter_no_properties (schema : Schema) request data :
  schema_properties schema = None ∨ schema_properties schema = Some [] →
  input_data json_loads request = Ok data →
  validate data schema = Ok () →
  parameter json_loads validate schema request = (Delegate, set_data [] request).
Proof.
  intros Hprops Hd Hv. apply (parameter_delegate_intro _ _ data); [done.. |].
  by destruct Hprops as [-> | ->].
Qed.

(** For a verb other than GET and POST, without the JSON content type,
    nothing the request carries (body, query string, form) reaches
    [request.data]: it holds the declared defaults and nothing else. *)
Theorem parameter_other_verbs (schema : Schema) (properties : dict) request :
  ¬ is_json request →
  req_method request ≠ "POST" → req_method request ≠ "GET" →
  schema_properties schema = Some properties →
  (∀ key prop, Py.lookup key properties = Some prop → ∃ p, prop = VDict p) →
  validate (VDict []) schema = Ok () →
  ∃ d : dict,
    parameter json_loads validate schema request
    = (Delegate, set_data d request) ∧
    ∀ key, Py.lookup key d = declared_default properties key.
Proof.
  intros Hj Hpost Hget Hprops Hsub Hv.
  destruct (normalize_absent (VDict []) properties Hsub) as (d & Hd & Hlook).
  { by intros key _. }
  exists d. split; [| done].
  apply (parameter_delegate_intro _ _ (VDict [])); [| done |].
  - unfold input_data, is_json in *. by rewrite !bool_decide_eq_false_2.
  - by rewrite Hprops.
Qed.

(** On a string or an array, the comprehension raises as soon as it meets a
    property name that the input holds. *)
Lemma data_items_found_raises data (properties : dict) keys acc :
  is_sequence data →
  (∀ key prop, Py.lookup key properties = Some prop → ∃ p, prop = VDict p) →
  (∀ key, key ∈ keys → key ∈ properties.*1) →
  (∃ key, key ∈ keys ∧ Py.contains data key = Ok true) →
  data_items data properties keys acc
  = Raise (mkExc AttributeError "object has no attribute 'get'").
Proof.
  intros Hseq Hsub. revert acc.
  induction keys as [| k keys IH]; intros acc Hkeys (key & Hin & Hfound).
  - by apply elem_of_nil in Hin.
  - cbn [data_items].
    destruct (Py.contains data k) as [[] | err] eqn:Hk.
    + unfold data_item. rewrite Hk. cbn [py_bind].
      by destruct data.
    + assert (∃ item, data_item data properties k = Ok item) as [item ->].
      { destruct (proj2 (lookup_Some_keys k properties)) as [prop Hprop];
          [apply Hkeys; left |].
        destruct (Hsub _ _ Hprop) as [p ->].
        unfold data_item. rewrite Hk.
        cbn [py_bind Py.getitem]. rewrite Hprop. cbn [py_bind Py.contains].
        destruct (Py.lookup "default" p) as [v |] eqn:Hd.
        - rewrite bool_decide_eq_true_2 by eauto. cbn [py_bind Py.getitem].
          rewrite Hd. eauto.
        - rewrite bool_decide_eq_false_2 by (by intros [? ?]). eauto. }
      cbn [py_bind]. apply IH.
      * intros key' Hin'. apply Hkeys. by right.
      * apply elem_of_cons in Hin as [-> | Hin]; [congruence | eauto].
    + by destruct data.
Qed.

(** A JSON body that is a string or an array is searched for the property
    names ([key in data] is a substring or an element test).  When one of
    them is found, [data.get] raises [AttributeError] and nothing catches
    it; when none is, the request reaches the view with the declared
    defaults. *)
Theorem parameter_sequence_body (schema : Schema) (properties : dict) request
    data :
  input_data json_loads request = Ok data →
  is_sequence data →
  validate data schema = Ok () →
  schema_properties schema = Some properties →
  (∀ key prop, Py.lookup key properties = Some prop → ∃ p, prop = VDict p) →
  ((∃ key, key ∈ properties.*1 ∧ Py.contains data key = Ok true) →
   parameter json_loads validate schema request
   = (Throw (mkExc AttributeError "object has no attribute 'get'"), request)) ∧
  ((∀ key, key ∈ properties.*1 → Py.contains data key = Ok false) →
   ∃ d : dict,
     parameter json_loads validate schema request
     = (Delegate, set_data d request) ∧
     ∀ key, Py.lookup key d = declared_default properties key).
Proof.
  intros Hd Hseq Hv Hprops Hsub. split.
  - intros Hfound. unfold parameter. rewrite Hd, Hv, Hprops. cbn [default].
    unfold normalize. by rewrite data_items_found_raises.
  - intros Habsent.
    destruct (normalize_absent data properties Hsub Habsent) as (d & Hn & Hl).
    exists d. split; [| done].
    apply (parameter_delegate_intro _ _ data); [done.. |]. by rewrite Hprops.
Qed.

(** The keys of the [dict] the comprehension builds come in the order in
    which it went through them, after those it started from. *)
Lemma data_items_keys data (properties : dict) keys acc out :
  data_items data properties keys acc = Ok out →
  NoDup keys → (∀ key, key ∈ keys → key ∉ acc.*1) →
  ∃ kept, out.*1 = (acc.*1 ++ kept)%list ∧ kept `sublist_of` keys.
Proof.
  revert acc. induction keys as [| k keys IH]; intros acc; cbn [data_items].
  - intros [= ->] _ _. exists []. by rewrite app_nil_r.
  - intros (item & Hk & Hrest)%py_bind_ok [Hnk Hnd]%NoDup_cons Hfresh.
    destruct item as [v |].
    + destruct (IH _ Hrest Hnd) as (kept & Hout & Hsub).
      { intros key Hin. rewrite set_keys.
        rewrite decide_False by (apply Hfresh; left).
        rewrite not_elem_of_app, not_elem_of_cons. split; [| split].
        - apply Hfresh. by right.
        - by intros ->.
        - apply not_elem_of_nil. }
      exists (k :: kept). split; [| by apply sublist_skip].
      rewrite Hout, set_keys.
      rewrite decide_False by (apply Hfresh; left).
      by rewrite <- app_assoc.
    + destruct (IH _ Hrest Hnd) as (kept & Hout & Hsub).
      { intros key Hin. apply Hfresh. by right. }
      exists kept. split; [done | by apply sublist_cons].
Qed.

(** [request.data] lists its keys in the order in which the schema
    declares the properties, each at most once. *)
Theorem parameter_key_order (schema : Schema) (properties : dict) request
    request' :
  schema_properties schema = Some properties →
  NoDup properties.*1 →
  parameter json_loads validate schema request = (Delegate, request') →
  ∃ d : dict,
    req_data request' = Some d ∧
    d.*1 `sublist_of` properties.*1 ∧ NoDup d.*1.
Proof.
  intros Hprops Hnd Hw.
  destruct (parameter_delegate_inv schema request) as (data & d & Hd & Hv & Hn);
    [by rewrite Hw |].
  rewrite (parameter_delegate_intro _ _ _ _ Hd Hv Hn) in Hw.
  injection Hw as <-. exists d. split; [done |].
  rewrite Hprops in Hn.
  change (data_items data properties properties.*1 [] = Ok d) in Hn.
  destruct (data_items_keys _ _ _ _ _ Hn Hnd) as (kept & Hkeys & Hsub).
  { intros key _. apply not_elem_of_nil. }
  cbn in Hkeys. rewrite Hkeys. split; [done |].
  by eapply sublist_NoDup.
Qed.

(** *** The wrappers together *)

(** [authenticate], [allow] and [parameter] never leave a half-updated
    request: when they do not reach the view, the request object is as it
    came; when they do, [authenticate] has set [request.user] and nothing
    else, [parameter] has set [request.data] and nothing else, and [allow]
    has set nothing. *)
Theorem wrappers_atomic (schema : Schema) (methods : list string) request :
  (∀ outcome request',
     authenticate find_by_id request = (outcome, request') →
     (outcome = Delegate ∧ ∃ u, request' = set_user u request) ∨
     (outcome ≠ Delegate ∧ request' = request)) ∧
  (∀ outcome request',
     allow methods request = (outcome, request') → request' = request) ∧
  (∀ outcome request',
     parameter json_loads validate schema request = (outcome, request') →
     (outcome = Delegate ∧ ∃ d, request' = set_data d request) ∨
     (outcome ≠ Delegate ∧ request' = request)).
Proof.
  split; [| split]; intros outcome request'.
  - unfold authenticate.
    destruct (User_objects_get _ _) as [u | err].
    + intros [= <- <-]. left. eauto.
    + destruct (isinstance _ _); intros [= <- <-]; by right.
  - unfold allow. by case_bool_decide; intros [= <- <-].
  - unfold parameter.
    destruct (input_data json_loads request) as [data | err];
      [| destruct (isinstance _ _); intros [= <- <-]; by right].
    destruct (validate data schema) as [[] | err];
      [| destruct (isinstance _ _); intros [= <- <-]; by right].
    destruct (normalize data _) as [d | err]; intros [= <- <-].
    + left. eauto.
    + by right.
Qed.


(** Decorating twice with the same decorator is decorating once: the
    inner copy finds the request as the outer one left it, decides the
    same and assigns the same attributes again. *)
Theorem decorate_twice (schema : Schema) (methods : list string)
    (default min_size max_size : Z) request func :
  decorate (authenticate find_by_id)
    (decorate (authenticate find_by_id) func) request
  = decorate (authenticate find_by_id) func request ∧
  decorate (allow methods) (decorate (allow methods) func) request
  = decorate (allow methods) func request ∧
  decorate (parameter json_loads validate schema)
    (decorate (parameter json_loads validate schema) func) request
  = decorate (parameter json_loads validate schema) func request ∧
  decorate (pagination default min_size max_size)
    (decorate (pagination default min_size max_size) func) request
  = decorate (pagination default min_size max_size) func request.
Proof.
  split; [| split; [| split]].
  - unfold decorate at 1 3. unfold authenticate at 1 3.
    destruct (User_objects_get find_by_id (req_session request !! "user_id"))
      as [u | err] eqn:Hu; [| by destruct (isinstance _ _)].
    unfold decorate, authenticate. cbn [req_session set_user]. by rewrite Hu.
  - unfold decorate at 1 3. unfold allow at 1 3.
    case_bool_decide as Hm; [done |].
    unfold decorate, allow.
    by rewrite bool_decide_eq_false_2 by (by intros Hn).
  - destruct (parameter json_loads validate schema request)
      as [outcome request'] eqn:Hw.
    unfold decorate at 1 3. rewrite Hw.
    destruct outcome as [response | | err]; [done | | done].
    destruct (parameter_delegate_inv schema request)
      as (data & d & Hd & Hv & Hn); [by rewrite Hw |].
    rewrite (parameter_delegate_intro _ _ _ _ Hd Hv Hn) in Hw.
    injection Hw as <-.
    by rewrite (decorate_delegate _ _ _
                  (parameter_delegate_intro schema (set_data d request)
                     data d Hd Hv Hn)).
  - destruct (decide (req_method request = "GET")) as [Hm | Hm].
    + unfold decorate at 1 3. rewrite (pagination_get_cases _ _ _ _ Hm).
      destruct (PyInt.of_str (page_text request)) as [p | e] eqn:Hp; [| done].
      destruct (PyInt.of_str (size_text default request)) as [z | e] eqn:Hs;
        [| done].
      unfold decorate.
      rewrite (pagination_get_cases default min_size max_size
                 (set_size _ (set_page p request)) Hm).
      change (page_text (set_size _ (set_page p request)))
        with (page_text request).
      change (size_text default (set_size _ (set_page p request)))
        with (size_text default request).
      by rewrite Hp, Hs.
    + unfold decorate, pagination. by rewrite !bool_decide_eq_true_2.
Qed.

(** [allow] reads its list as a set: two lists with the same verbs, in
    whatever order and however often repeated, make the same wrapper. *)
Theorem allow_same_verbs (methods methods' : list string) request :
  (∀ verb, verb ∈ methods ↔ verb ∈ methods') →
  allow methods request = allow methods' request.
Proof.
  intros Hsame. unfold allow.
  destruct (decide (req_method request ∈ methods)) as [Hin | Hin].
  - rewrite !bool_decide_eq_false_2; [done | |]; intros Hn; apply Hn;
      [by apply Hsame | done].
  - rewrite !bool_decide_eq_true_2; [done | | done].
    by rewrite <- Hsame.
Qed.

End Further.

(** The further properties, at concrete requests. *)

Lemma pagination_page_error_run :
  pagination 10 1 20
    (Sample.request "GET" None "" {["page" := ["first"]; "size" := ["many"]]})
  = (Respond (HttpResponseIncorrectParameter (mkExc ValueError "first")),
     Sample.request "GET" None "" {["page" := ["first"]; "size" := ["many"]]}).
Proof.
  by apply (pagination_page_error 10 1 20
              (Sample.request "GET" None ""
                 {["page" := ["first"]; "size" := ["many"]]})
              (mkExc ValueError "first")).
Defined.

Lemma pagination_size_clamp_run :
  ∃ stored : Z,
    req_size
      (pagination 10 5 3 (Sample.request "GET" None "" {["size" := ["4"]]})).2
    = Some stored ∧ stored = 3%Z.
Proof.
  destruct (pagination_size_clamp 10 5 3
              (Sample.request "GET" None "" {["size" := ["4"]]}) 1 4)
    as (stored & Hsize & _ & _ & _ & _ & Hout); [done.. |].
  exists stored. split; [done |]. by apply Hout.
Defined.


Lemma parameter_no_properties_run :
  parameter Sample.json_loads Sample.validate MoreSamples.schema_bare
    (Sample.request "POST" (Some "application/json") "5" ∅)
  = (Delegate,
     set_data [] (Sample.request "POST" (Some "application/json") "5" ∅)).
Proof.
  apply (parameter_no_properties Sample.json_loads Sample.validate
           MoreSamples.schema_bare
           (Sample.request "POST" (Some "application/json") "5" ∅) (VInt 5));
    [by left | done | done].
Defined.

Lemma two_subschemas key prop :
  Py.lookup key
    [("name", VDict []); ("age", VDict [("default", VInt 18)])] = Some prop →
  ∃ p, prop = VDict p.
Proof.
  cbn [Py.lookup]. repeat case_decide; intros [=]; subst; eauto.
Qed.

Lemma parameter_other_verbs_run :
  ∃ d : dict,
    parameter Sample.json_loads Sample.validate MoreSamples.schema_two
      (Sample.request "PUT" None "{}" {["name" := ["bob"]]})
    = (Delegate,
       set_data d (Sample.request "PUT" None "{}" {["name" := ["bob"]]})) ∧
    Py.lookup "name" d = None ∧ Py.lookup "age" d = Some (VInt 18).
Proof.
  destruct (parameter_other_verbs Sample.json_loads Sample.validate
              MoreSamples.schema_two
              [("name", VDict []); ("age", VDict [("default", VInt 18)])]
              (Sample.request "PUT" None "{}" {["name" := ["bob"]]}))
    as (d & Hw & Hlook); [done.. | apply two_subschemas | done |].
  exists d. split; [done |]. by rewrite !Hlook.
Defined.

Lemma parameter_sequence_body_run :
  parameter MoreSamples.json_loads Sample.validate MoreSamples.schema_two
    (Sample.request "POST" (Some "application/json")
       MoreSamples.names_document ∅)
  = (Throw (mkExc AttributeError "object has no attribute 'get'"),
     Sample.request "POST" (Some "application/json")
       MoreSamples.names_document ∅) ∧
  parameter MoreSamples.json_loads Sample.validate MoreSamples.schema_two
    (Sample.request "POST" (Some "application/json")
       MoreSamples.text_document ∅)
  = (Throw (mkExc AttributeError "object has no attribute 'get'"),
     Sample.request "POST" (Some "application/json")
       MoreSamples.text_document ∅) ∧
  ∃ d : dict,
    parameter MoreSamples.json_loads Sample.validate MoreSamples.schema_two
      (Sample.request "POST" (Some "application/json") "[]" ∅)
    = (Delegate,
       set_data d (Sample.request "POST" (Some "application/json") "[]" ∅)) ∧
    Py.lookup "age" d = Some (VInt 18).
Proof.
  split; [| split].
  - apply (parameter_sequence_body MoreSamples.json_loads Sample.validate
             MoreSamples.schema_two
             [("name", VDict []); ("age", VDict [("default", VInt 18)])]
             (Sample.request "POST" (Some "application/json")
                MoreSamples.names_document ∅)
             (VList [VStr "name"])); [done.. | apply two_subschemas |].
    exists "name". split; [left | done].
  - apply (parameter_sequence_body MoreSamples.json_loads Sample.validate
             MoreSamples.schema_two
             [("name", VDict []); ("age", VDict [("default", VInt 18)])]
             (Sample.request "POST" (Some "application/json")
                MoreSamples.text_document ∅)
             (VStr "my name")); [done.. | apply two_subschemas |].
    exists "name". split; [left | done].
  - destruct (parameter_sequence_body MoreSamples.json_loads Sample.validate
                MoreSamples.schema_two
                [("name", VDict []); ("age", VDict [("default", VInt 18)])]
                (Sample.request "POST" (Some "application/json") "[]" ∅)
                (VList [])) as [_ Hnone]; [done.. | apply two_subschemas |].
    destruct Hnone as (d & Hw & Hlook); [done |].
    exists d. split; [done |]. by rewrite Hlook.
Defined.

Lemma parameter_key_order_run :
  ∃ d : dict,
    req_data
      (parameter Sample.json_loads Sample.validate MoreSamples.schema_two
         (Sample.form_request {["age" := ["30"]; "name" := ["carol"]]})).2
    = Some d ∧
    d.*1 `sublist_of` ["name"; "age"].
Proof.
  destruct (parameter_key_order Sample.json_loads Sample.validate
              MoreSamples.schema_two
              [("name", VDict []); ("age", VDict [("default", VInt 18)])]
              (Sample.form_request {["age" := ["30"]; "name" := ["carol"]]})
              (parameter Sample.json_loads Sample.validate
                 MoreSamples.schema_two
                 (Sample.form_request
                    {["age" := ["30"]; "name" := ["carol"]]})).2)
    as (d & Hd & Hsub & _); [done | | by vm_compute |].
  { cbn. apply NoDup_cons. split; [| apply NoDup_singleton].
    by intros ?%list_elem_of_singleton. }
  by exists d.
Defined.


Lemma allow_same_verbs_run :
  allow ["POST"; "GET"; "POST"] (Sample.request "PUT" None "" ∅)
  = allow ["GET"; "POST"] (Sample.request "PUT" None "" ∅).
Proof.
  apply (allow_same_verbs ["POST"; "GET"; "POST"] ["GET"; "POST"]
           (Sample.request "PUT" None "" ∅)).
  intros verb. rewrite !elem_of_cons, !elem_of_nil. tauto.
Defined.
